(** * Shallow embedding of ironic/drivers/modules/fake.py

    The fake driver interfaces of ironic: [FakePower], [FakeDeploy],
    [FakeVendorA], [FakeVendorB], [FakeConsole] and [FakeManagement].
    Every interface method receives a [task] whose [node] it may read or
    mutate, and may raise an ironic exception.  We model a method as a
    state-and-exception computation over the task: it returns either a
    value or the raised exception, together with the task after the call
    (Python's [raise] leaves whatever was mutated before it in place). *)

From stdpp Require Import base gmap strings list.
From Stdlib Require Import String ZArith.

Open Scope string_scope.
Local Set Warnings "-register-all".

(** ** Python values

    The values a passthru keyword argument may carry (they arrive from a
    JSON request body), with Python's truthiness. *)
Inductive pyval :=
  | PNone
  | PBool (b : bool)
  | PInt (z : Z)
  | PStr (s : string)
  | PList (l : list pyval).

(** [bool(v)] in Python. *)
Definition truthy (v : pyval) : bool :=
  match v with
  | PNone => false
  | PBool b => b
  | PInt z => negb (Z.eqb z 0)
  | PStr s => negb (String.eqb s "")
  | PList l => match l with [] => false | _ :: _ => true end
  end.

(** [v == 'lit'] for a string literal: only a [str] equal to it compares equal. *)
Definition py_eq_str (v : pyval) (lit : string) : bool :=
  match v with
  | PStr s => String.eqb s lit
  | _ => false
  end.

(** [x in xs] for a list of strings. *)
Definition py_in (x : string) (xs : list string) : bool :=
  existsb (String.eqb x) xs.

(** ** Shared vocabulary of the host framework

    The constants of [ironic.common.states] and [ironic.common.boot_devices]
    that fake.py uses, with their values. *)
Definition POWER_ON : string := "power on".
Definition POWER_OFF : string := "power off".
Definition DEPLOYDONE : string := "deploy done".
Definition DELETED : string := "deleted".
Definition PXE : string := "pxe".

(** ** Nodes, tasks, exceptions *)

(** The fields of a node record this module can reach; [power_state] may be
    [None] (the host's NOSTATE). *)
Record Node := mkNode {
  uuid : string;
  power_state : option string;
  target_power_state : option string;
  provision_state : option string
}.

Record Task := mkTask { node : Node }.

(** [task.node.power_state = ps] *)
Definition set_node_power_state (task : Task) (ps : option string) : Task :=
  let n := node task in
  mkTask (mkNode (uuid n) ps (target_power_state n) (provision_state n)).

(** The two exceptions of [ironic.common.exception] raised here, with their
    formatted message ([_] is the identity translation). *)
Inductive exn :=
  | InvalidParameterValue (msg : string)
  | MissingParameterValue (msg : string).

Inductive result (A : Type) :=
  | Ok (a : A)
  | Raise (e : exn).
Arguments Ok {A} a.
Arguments Raise {A} e.

(** A driver method: the task in, the outcome and the task out. *)
Definition M (A : Type) := Task -> result A * Task.

Definition ret {A} (a : A) : M A := fun t => (Ok a, t).
Definition raise {A} (e : exn) : M A := fun t => (Raise e, t).
Definition bind {A B} (m : M A) (k : A -> M B) : M B :=
  fun t => match m t with
           | (Ok a, t') => k a t'
           | (Raise e, t') => (Raise e, t')
           end.

(** [m] then [k], discarding the value of [m]. *)
Definition mseq {A B} (m : M A) (k : M B) : M B := bind m (fun _ => k).

(** [msg] contains [s] as a substring. *)
Definition contains (s msg : string) : Prop :=
  exists pre post, msg = pre ++ s ++ post.

(** ** FakePower *)
Module FakePower.

Definition get_properties : list (string * string) := [].

Definition validate : M unit := ret tt.

Definition get_power_state : M (option string) :=
  fun task => (Ok (power_state (node task)), task).

Definition set_power_state (power_state : string) : M unit :=
  fun task =>
    if negb (py_in power_state [POWER_ON; POWER_OFF]) then
      (Raise (InvalidParameterValue
                ("set_power_state called with an invalid power state: "
                 ++ power_state ++ ".")), task)
    else (Ok tt, set_node_power_state task (Some power_state)).

Definition reboot : M unit := ret tt.

End FakePower.

(** ** FakeDeploy *)
Module FakeDeploy.

Definition get_properties : list (string * string) := [].
Definition validate : M unit := ret tt.
Definition deploy : M string := ret DEPLOYDONE.
Definition tear_down : M string := ret DELETED.
Definition prepare : M unit := ret tt.
Definition clean_up : M unit := ret tt.
Definition take_over : M unit := ret tt.

End FakeDeploy.

(** The keyword arguments of a passthru call, a Python dict. *)
Definition kwargs_t := gmap string pyval.

(** [kwargs.get(k)]: [None] when the key is absent. *)
Definition kw_get (kwargs : kwargs_t) (k : string) : pyval :=
  default PNone (kwargs !! k).

(** The arguments given to the [base.passthru] decorator of a vendor
    method: the allowed HTTP methods, the description, and the [async]
    argument when the decorator call passes one ([None] when it is left to
    the decorator's default). *)
Record passthru_info := mkPassthru {
  http_methods : list string;
  description : string;
  async_arg : option bool
}.

(** ** FakeVendorA *)
Module FakeVendorA.

Definition get_properties : list (string * string) :=
  [("A1", "A1 description. Required."); ("A2", "A2 description. Optional.")].

Definition validate (method : string) (kwargs : kwargs_t) : M unit :=
  if String.eqb method "first_method" then
    let bar := kw_get kwargs "bar" in
    if negb (truthy bar) then
      raise (MissingParameterValue
               "Parameter 'bar' not passed to method 'first_method'.")
    else ret tt
  else ret tt.

Definition first_method (http_method : string) (bar : pyval) : M bool :=
  ret (if py_eq_str bar "baz" then true else false).

(** The methods of the class decorated with [base.passthru]. *)
Definition passthru_methods : list (string * passthru_info) :=
  [("first_method", mkPassthru ["POST"] "Test if the value of bar is baz" None)].

End FakeVendorA.

(** ** FakeVendorB *)
Module FakeVendorB.

Definition get_properties : list (string * string) :=
  [("B1", "B1 description. Required."); ("B2", "B2 description. Required.")].

Definition validate (method : string) (kwargs : kwargs_t) : M unit :=
  if py_in method ["second_method"; "third_method_sync"] then
    let bar := kw_get kwargs "bar" in
    if negb (truthy bar) then
      raise (MissingParameterValue
               ("Parameter 'bar' not passed to method '" ++ method ++ "'."))
    else ret tt
  else ret tt.

Definition second_method (http_method : string) (bar : pyval) : M bool :=
  ret (if py_eq_str bar "kazoo" then true else false).

Definition third_method_sync (http_method : string) (bar : pyval) : M bool :=
  ret (if py_eq_str bar "meow" then true else false).

(** The methods of the class decorated with [base.passthru]. *)
Definition passthru_methods : list (string * passthru_info) :=
  [("second_method", mkPassthru ["POST"] "Test if the value of bar is kazoo" None);
   ("third_method_sync",
    mkPassthru ["POST"] "Test if the value of bar is meow" (Some false))].

End FakeVendorB.

(** ** FakeConsole *)
Module FakeConsole.

Definition get_properties : list (string * string) := [].
Definition validate : M unit := ret tt.
Definition start_console : M unit := ret tt.
Definition stop_console : M unit := ret tt.
Definition get_console : M (list (string * string)) := ret [].

End FakeConsole.

(** ** FakeManagement *)
Module FakeManagement.

Definition get_properties : list (string * string) := [].
Definition validate : M unit := ret tt.

Definition get_supported_boot_devices : list string := [PXE].

Definition set_boot_device (device : string) (persistent : bool) : M unit :=
  if negb (py_in device get_supported_boot_devices) then
    raise (InvalidParameterValue
             ("Invalid boot device " ++ device ++ " specified."))
  else ret tt.

(** The dict [{'boot_device': ..., 'persistent': ...}]. *)
Record boot_device_info := mkBootDeviceInfo {
  boot_device : string;
  persistent : bool
}.

Definition get_boot_device : M boot_device_info :=
  ret (mkBootDeviceInfo PXE false).

Definition get_sensors_data : M (list (string * string)) := ret [].

(** A sequence of [set_boot_device(task, device, persistent)] calls on one
    task, each attempted whatever the outcome of the previous ones (the
    caller catches the exception and goes on). *)
Fixpoint set_boot_device_calls (calls : list (string * bool)) (task : Task) : Task :=
  match calls with
  | [] => task
  | (d, p) :: rest => set_boot_device_calls rest (snd (set_boot_device d p task))
  end.

End FakeManagement.

(** An operation that never changes the task it runs on. *)
Definition leaves_task (A : Type) (m : M A) : Prop :=
  forall task, snd (m task) = task.
Arguments leaves_task {A} m.

(** ** Sanity checks on concrete inputs *)

Definition node0 : Node := mkNode "1be26c0b" (Some POWER_OFF) None (Some "active").
Definition task0 : Task := mkTask node0.

Example set_power_on_task0 :
  fst (mseq (FakePower.set_power_state POWER_ON) FakePower.get_power_state task0)
  = Ok (Some POWER_ON).
Proof. reflexivity. Qed.

Example set_power_bogus_task0 :
  FakePower.set_power_state "reboot" task0
  = (Raise (InvalidParameterValue
              "set_power_state called with an invalid power state: reboot."), task0).
Proof. reflexivity. Qed.

Example validate_b_empty_bar :
  fst (FakeVendorB.validate "third_method_sync" (<["bar" := PStr ""]> ∅) task0)
  = Raise (MissingParameterValue
             "Parameter 'bar' not passed to method 'third_method_sync'.").
Proof. reflexivity. Qed.

Example validate_a_other_method :
  fst (FakeVendorA.validate "second_method" ∅ task0) = Ok tt.
Proof. reflexivity. Qed.

Example set_boot_device_disk :
  fst (FakeManagement.set_boot_device "disk" true task0)
  = Raise (InvalidParameterValue "Invalid boot device disk specified.").
Proof. reflexivity. Qed.

(** ** Helper lemmas *)

Lemma py_in_two_false (x a b : string) :
  x <> a -> x <> b -> py_in x [a; b] = false.
Proof.
  intros Ha Hb. unfold py_in. simpl.
  apply String.eqb_neq in Ha. apply String.eqb_neq in Hb.
  rewrite Ha, Hb. reflexivity.
Qed.

Lemma py_in_two_true (x a b : string) :
  py_in x [a; b] = true -> x = a \/ x = b.
Proof.
  unfold py_in. simpl.
  destruct (String.eqb_spec x a) as [->|_]; [auto|].
  destruct (String.eqb_spec x b) as [->|_]; [auto|].
  discriminate.
Qed.

Lemma contains_middle (pre s post : string) : contains s (pre ++ s ++ post).
Proof. exists pre, post. reflexivity. Qed.

(** ** FakePower: claims *)

(** C1: for a canonical value ("power on" or "power off"),
    [set_power_state] raises nothing, overwrites the node's [power_state]
    with that value (no other field changes), and a subsequent
    [get_power_state] on the same task returns exactly that value. *)
Theorem set_power_state_canonical (task : Task) (ps : string)
  (Hps : ps = POWER_ON \/ ps = POWER_OFF) :
  FakePower.set_power_state ps task = (Ok tt, set_node_power_state task (Some ps)) /\
  fst (mseq (FakePower.set_power_state ps) FakePower.get_power_state task) = Ok (Some ps).
Proof. destruct Hps as [-> | ->]; split; reflexivity. Qed.

Lemma set_power_state_canonical_witness :
  (POWER_ON = POWER_ON \/ POWER_ON = POWER_OFF) /\
  FakePower.set_power_state POWER_ON task0
    = (Ok tt, set_node_power_state task0 (Some POWER_ON)) /\
  fst (mseq (FakePower.set_power_state POWER_ON) FakePower.get_power_state task0)
    = Ok (Some POWER_ON).
Proof.
  split; [left; reflexivity |].
  apply (set_power_state_canonical task0 POWER_ON). left; reflexivity.
Defined.

(** C2: for any value other than "power on" and "power off" (the empty
    string included), [set_power_state] raises InvalidParameterValue (the
    spec's InvalidInput) whose message contains the value, and the task, so
    the node's [power_state], is exactly as before the call. *)
Theorem set_power_state_invalid (task : Task) (ps : string)
  (Hon : ps <> POWER_ON) (Hoff : ps <> POWER_OFF) :
  exists msg,
    FakePower.set_power_state ps task = (Raise (InvalidParameterValue msg), task) /\
    contains ps msg.
Proof.
  unfold FakePower.set_power_state.
  rewrite (py_in_two_false ps POWER_ON POWER_OFF Hon Hoff). simpl.
  eexists. split; [reflexivity | apply contains_middle].
Qed.

Lemma set_power_state_invalid_witness :
  exists msg,
    FakePower.set_power_state "" task0 = (Raise (InvalidParameterValue msg), task0) /\
    contains "" msg.
Proof.
  apply (set_power_state_invalid task0 "");
    unfold POWER_ON, POWER_OFF; discriminate.
Defined.

(** C3: whatever the argument and whether the call raises or not, after
    [set_power_state] the node's [power_state] is its value before the
    call, "power on" or "power off". *)
Theorem set_power_state_only_canonical (task : Task) (ps : string) :
  let after := power_state (node (snd (FakePower.set_power_state ps task))) in
  after = power_state (node task) \/ after = Some POWER_ON \/ after = Some POWER_OFF.
Proof.
  unfold FakePower.set_power_state. cbv zeta.
  destruct (py_in ps [POWER_ON; POWER_OFF]) eqn:Hin; simpl.
  - destruct (py_in_two_true _ _ _ Hin) as [-> | ->]; auto.
  - auto.
Qed.

(** ** Vendor passthru interfaces: claims *)

Lemma validate_a_shape (method : string) (kwargs : kwargs_t) (task : Task) :
  FakeVendorA.validate method kwargs task =
  if String.eqb method "first_method" && negb (truthy (kw_get kwargs "bar"))
  then (Raise (MissingParameterValue
                 "Parameter 'bar' not passed to method 'first_method'."), task)
  else (Ok tt, task).
Proof.
  unfold FakeVendorA.validate.
  destruct (String.eqb method "first_method"), (truthy (kw_get kwargs "bar"));
    reflexivity.
Qed.

Lemma validate_b_shape (method : string) (kwargs : kwargs_t) (task : Task) :
  FakeVendorB.validate method kwargs task =
  if py_in method ["second_method"; "third_method_sync"]
     && negb (truthy (kw_get kwargs "bar"))
  then (Raise (MissingParameterValue
                 ("Parameter 'bar' not passed to method '" ++ method ++ "'.")), task)
  else (Ok tt, task).
Proof.
  unfold FakeVendorB.validate.
  destruct (py_in method _), (truthy (kw_get kwargs "bar")); reflexivity.
Qed.

Lemma py_in_two_iff (x a b : string) :
  py_in x [a; b] = true <-> x = a \/ x = b.
Proof.
  split; [apply py_in_two_true |].
  unfold py_in. simpl. intros [-> | ->].
  - rewrite String.eqb_refl. reflexivity.
  - rewrite String.eqb_refl, orb_true_r. reflexivity.
Qed.

(** C4: [FakeVendorA.validate] and [FakeVendorB.validate] either raise
    nothing or raise MissingParameterValue (the spec's
    MissingRequiredParameter) whose message names [bar] and the method,
    leaving the task as it was; they raise exactly when the method is one
    of theirs ('first_method' for A; 'second_method' or
    'third_method_sync' for B) and [bar] is absent or falsy. *)
Theorem vendor_validate_requires_bar :
  (forall (task : Task) (method : string) (kwargs : kwargs_t),
     (FakeVendorA.validate method kwargs task = (Ok tt, task) \/
      exists msg,
        FakeVendorA.validate method kwargs task
          = (Raise (MissingParameterValue msg), task) /\
        contains "bar" msg /\ contains method msg) /\
     ((exists e, fst (FakeVendorA.validate method kwargs task) = Raise e) <->
      method = "first_method" /\ truthy (kw_get kwargs "bar") = false)) /\
  (forall (task : Task) (method : string) (kwargs : kwargs_t),
     (FakeVendorB.validate method kwargs task = (Ok tt, task) \/
      exists msg,
        FakeVendorB.validate method kwargs task
          = (Raise (MissingParameterValue msg), task) /\
        contains "bar" msg /\ contains method msg) /\
     ((exists e, fst (FakeVendorB.validate method kwargs task) = Raise e) <->
      (method = "second_method" \/ method = "third_method_sync") /\
      truthy (kw_get kwargs "bar") = false)).
Proof.
  split; intros task method kwargs.
  - rewrite validate_a_shape.
    destruct (String.eqb_spec method "first_method") as [-> | Hm];
      destruct (truthy (kw_get kwargs "bar")) eqn:Hbar; simpl.
    + split; [auto |]. split; [intros [e He]; discriminate | intros [_ H]; discriminate].
    + split.
      * right. eexists. split; [reflexivity |]. split.
        -- exact (contains_middle "Parameter '" "bar" "' not passed to method 'first_method'.").
        -- exact (contains_middle "Parameter 'bar' not passed to method '" "first_method" "'.").
      * split; [auto | intros _; eexists; reflexivity].
    + split; [auto |]. split; [intros [e He]; discriminate | intros [H _]; contradiction].
    + split; [auto |]. split; [intros [e He]; discriminate | intros [H _]; contradiction].
  - rewrite validate_b_shape.
    destruct (py_in method ["second_method"; "third_method_sync"]) eqn:Hm;
      destruct (truthy (kw_get kwargs "bar")) eqn:Hbar; simpl.
    + split; [auto |]. split; [intros [e He]; discriminate | intros [_ H]; discriminate].
    + split.
      * right. eexists. split; [reflexivity |]. split.
        -- exact (contains_middle "Parameter '" "bar"
                    ("' not passed to method '" ++ method ++ "'.")).
        -- exact (contains_middle "Parameter 'bar' not passed to method '" method "'.").
      * split; [intros _; split; [apply py_in_two_iff; exact Hm | reflexivity]
               | intros _; eexists; reflexivity].
    + split; [auto |]. split; [intros [e He]; discriminate | intros [_ H]; discriminate].
    + split; [auto |]. split; [intros [e He]; discriminate |].
      intros [H _]. apply py_in_two_iff in H. congruence.
Qed.

Lemma py_eq_str_iff (v : pyval) (lit : string) :
  py_eq_str v lit = true <-> v = PStr lit.
Proof.
  destruct v as [| b | z | s | l]; simpl;
    try (split; [discriminate | intros H; discriminate H]).
  rewrite String.eqb_eq. split; [intros -> | intros H; injection H]; auto.
Qed.

Lemma passthru_compare (lit : string) (bar : pyval) (task : Task) :
  exists b, ret (if py_eq_str bar lit then true else false) task = (Ok b, task) /\
            (b = true <-> bar = PStr lit).
Proof.
  exists (py_eq_str bar lit). unfold ret.
  split; [destruct (py_eq_str bar lit); reflexivity | apply py_eq_str_iff].
Qed.

(** C5: whatever the task, the HTTP method and [bar],
    [FakeVendorA.first_method] returns a boolean, true exactly when [bar]
    is the string "baz" (false for any other value, the empty string
    included), and leaves the task unchanged. *)
Theorem first_method_is_baz (task : Task) (http_method : string) (bar : pyval) :
  exists b, FakeVendorA.first_method http_method bar task = (Ok b, task) /\
            (b = true <-> bar = PStr "baz").
Proof. apply passthru_compare. Qed.

(** C6: [FakeVendorB.second_method] returns true exactly when [bar] is the
    string "kazoo" and [FakeVendorB.third_method_sync] exactly when it is
    "meow"; both return false for every other value. *)
Theorem vendor_b_methods_compare (task : Task) (http_method : string) (bar : pyval) :
  (exists b, FakeVendorB.second_method http_method bar task = (Ok b, task) /\
             (b = true <-> bar = PStr "kazoo")) /\
  (exists b, FakeVendorB.third_method_sync http_method bar task = (Ok b, task) /\
             (b = true <-> bar = PStr "meow")).
Proof. split; apply passthru_compare. Qed.

(** ** FakeManagement and FakeDeploy: claims *)

(** C7: the supported boot devices are the one-element list [["pxe"]];
    [set_boot_device] with "pxe" raises nothing and leaves the task as it
    was; with any other device it raises InvalidParameterValue (the spec's
    InvalidInput) whose message contains the device. *)
Theorem boot_device_support :
  FakeManagement.get_supported_boot_devices = [PXE] /\
  (forall (task : Task) (persistent : bool),
     FakeManagement.set_boot_device PXE persistent task = (Ok tt, task)) /\
  (forall (task : Task) (device : string) (persistent : bool),
     device = PXE \/
     exists msg,
       FakeManagement.set_boot_device device persistent task
         = (Raise (InvalidParameterValue msg), task) /\
       contains device msg).
Proof.
  split; [reflexivity |]. split; [reflexivity |].
  intros task device persistent.
  destruct (String.eqb_spec device PXE) as [-> | Hd]; [left; reflexivity | right].
  unfold FakeManagement.set_boot_device, FakeManagement.get_supported_boot_devices,
    py_in. simpl. apply String.eqb_neq in Hd. rewrite Hd. simpl.
  eexists. split; [reflexivity | apply contains_middle].
Qed.

(** C8: after any sequence of [set_boot_device] calls on a task, each
    succeeding or raising, [get_boot_device] returns the fixed record
    {boot_device: "pxe", persistent: false}. *)
Theorem get_boot_device_after_calls (calls : list (string * bool)) (task : Task) :
  fst (FakeManagement.get_boot_device
         (FakeManagement.set_boot_device_calls calls task))
  = Ok (FakeManagement.mkBootDeviceInfo PXE false).
Proof. reflexivity. Qed.

(** C9: whatever the task, [deploy] returns "deploy done" and [tear_down]
    returns "deleted", and neither changes the task or its node. *)
Theorem deploy_tear_down_constant (task : Task) :
  FakeDeploy.deploy task = (Ok DEPLOYDONE, task) /\
  FakeDeploy.tear_down task = (Ok DELETED, task).
Proof. split; reflexivity. Qed.

(** C10: the outcome of [set_boot_device] (value or exception, and the task
    after the call) does not depend on [persistent]. *)
Theorem set_boot_device_persistent_irrelevant (task : Task) (device : string) :
  FakeManagement.set_boot_device device true task
  = FakeManagement.set_boot_device device false task.
Proof. reflexivity. Qed.

(** ** Further properties of the fake interfaces *)

Definition canonical_power (ps : string) : Prop := ps = POWER_ON \/ ps = POWER_OFF.

(** [set_power_state] writes only [power_state]: whatever the argument and
    whether it raises or not, the node's other fields keep their values. *)
Theorem set_power_state_frame (task : Task) (ps : string) :
  let n' := node (snd (FakePower.set_power_state ps task)) in
  uuid n' = uuid (node task) /\
  target_power_state n' = target_power_state (node task) /\
  provision_state n' = provision_state (node task).
Proof.
  unfold FakePower.set_power_state. cbv zeta.
  destruct (negb (py_in ps [POWER_ON; POWER_OFF])); simpl; auto.
Qed.

(** Two successful [set_power_state] calls in a row act as the second one
    alone: the last written power state wins, whatever the first was. *)
Theorem set_power_state_last_wins (task : Task) (p q : string)
  (Hp : canonical_power p) (Hq : canonical_power q) :
  mseq (FakePower.set_power_state p) (FakePower.set_power_state q) task
  = FakePower.set_power_state q task.
Proof.
  destruct Hp as [-> | ->]; destruct Hq as [-> | ->]; destruct task as [[]]; reflexivity.
Qed.

Lemma set_power_state_last_wins_witness :
  canonical_power POWER_ON /\ canonical_power POWER_OFF /\
  mseq (FakePower.set_power_state POWER_ON) (FakePower.set_power_state POWER_OFF) task0
  = FakePower.set_power_state POWER_OFF task0.
Proof.
  split; [left; reflexivity |]. split; [right; reflexivity |].
  apply set_power_state_last_wins; [left | right]; reflexivity.
Defined.

Lemma kw_get_insert_ne (kwargs : kwargs_t) (k : string) (v : pyval) :
  k <> "bar" -> kw_get (<[k := v]> kwargs) "bar" = kw_get kwargs "bar".
Proof. intros Hk. unfold kw_get, kwargs_t in *. rewrite lookup_insert_ne; auto. Qed.

(** The vendor [validate] methods read the keyword arguments only through
    [bar]: adding or replacing any other keyword argument changes nothing. *)
Theorem vendor_validate_ignores_other_kwargs (task : Task) (method k : string)
  (v : pyval) (kwargs : kwargs_t) (Hk : k <> "bar") :
  FakeVendorA.validate method (<[k := v]> kwargs) task
    = FakeVendorA.validate method kwargs task /\
  FakeVendorB.validate method (<[k := v]> kwargs) task
    = FakeVendorB.validate method kwargs task.
Proof.
  unfold FakeVendorA.validate, FakeVendorB.validate.
  rewrite (kw_get_insert_ne kwargs k v Hk). split; reflexivity.
Qed.

Lemma vendor_validate_ignores_other_kwargs_witness :
  FakeVendorA.validate "first_method" (<["foo" := PStr "x"]> ∅) task0
    = FakeVendorA.validate "first_method" ∅ task0 /\
  FakeVendorB.validate "first_method" (<["foo" := PStr "x"]> ∅) task0
    = FakeVendorB.validate "first_method" ∅ task0.
Proof. apply vendor_validate_ignores_other_kwargs. discriminate. Defined.

(** A [bar] that is passed but falsy ([None], [False], [0], the empty string
    or the empty list) is treated by the vendor [validate] methods exactly
    as a missing [bar]. *)
Theorem vendor_validate_falsy_bar_as_missing (task : Task) (method : string)
  (v : pyval) (kwargs : kwargs_t) (Hv : truthy v = false) :
  FakeVendorA.validate method (<["bar" := v]> kwargs) task
    = FakeVendorA.validate method (delete "bar" kwargs) task /\
  FakeVendorB.validate method (<["bar" := v]> kwargs) task
    = FakeVendorB.validate method (delete "bar" kwargs) task.
Proof.
  unfold FakeVendorA.validate, FakeVendorB.validate, kw_get, kwargs_t in *.
  rewrite lookup_insert_eq, lookup_delete_eq. simpl. rewrite Hv. split; reflexivity.
Qed.

Lemma vendor_validate_falsy_bar_as_missing_witness :
  FakeVendorA.validate "first_method" (<["bar" := PInt 0]> ∅) task0
    = FakeVendorA.validate "first_method" (delete "bar" ∅) task0 /\
  FakeVendorB.validate "first_method" (<["bar" := PInt 0]> ∅) task0
    = FakeVendorB.validate "first_method" (delete "bar" ∅) task0.
Proof. apply vendor_validate_falsy_bar_as_missing. reflexivity. Defined.

(** Each vendor [validate] checks exactly the methods its class exposes
    through [base.passthru]: it raises precisely for a method name of its
    own passthru methods when [bar] is absent or falsy. *)
Theorem vendor_validate_matches_passthru (task : Task) (method : string)
  (kwargs : kwargs_t) :
  ((exists e, fst (FakeVendorA.validate method kwargs task) = Raise e) <->
   In method (map fst FakeVendorA.passthru_methods) /\
   truthy (kw_get kwargs "bar") = false) /\
  ((exists e, fst (FakeVendorB.validate method kwargs task) = Raise e) <->
   In method (map fst FakeVendorB.passthru_methods) /\
   truthy (kw_get kwargs "bar") = false).
Proof.
  rewrite validate_a_shape, validate_b_shape.
  unfold FakeVendorA.passthru_methods, FakeVendorB.passthru_methods.
  cbn [map fst].
  destruct (truthy (kw_get kwargs "bar")); cbn [negb].
  - rewrite !andb_false_r. simpl.
    split; split; [intros [e He]; discriminate | intros [_ H]; discriminate
                  | intros [e He]; discriminate | intros [_ H]; discriminate].
  - rewrite !andb_true_r. split.
    + destruct (String.eqb_spec method "first_method") as [-> | Hm]; simpl.
      * split; [intros _; auto | intros _; eexists; reflexivity].
      * split; [intros [e He]; discriminate |].
        intros [[H | []] _]. congruence.
    + destruct (py_in method ["second_method"; "third_method_sync"]) eqn:Hm; simpl.
      * split; [intros _ | intros _; eexists; reflexivity].
        apply py_in_two_iff in Hm.
        split; [destruct Hm as [-> | ->]; simpl; auto | reflexivity].
      * split; [intros [e He]; discriminate |].
        intros [H _]. exfalso. rewrite <- not_true_iff_false in Hm. apply Hm.
        apply py_in_two_iff. destruct H as [H | [H | []]]; subst; auto.
Qed.

(** No method name makes both vendor [validate] methods raise: the names
    the two classes check are disjoint, so for any call at least one of
    them accepts it. *)
Theorem vendor_validates_disjoint (task : Task) (method : string)
  (kwargs : kwargs_t) :
  fst (FakeVendorA.validate method kwargs task) = Ok tt \/
  fst (FakeVendorB.validate method kwargs task) = Ok tt.
Proof.
  rewrite validate_a_shape, validate_b_shape.
  destruct (String.eqb_spec method "first_method") as [-> | Hm]; simpl.
  - right. reflexivity.
  - left. reflexivity.
Qed.

(** Apart from [FakePower.set_power_state], no operation of the fake
    interfaces changes the task or its node, whatever its arguments and
    whether it raises or not. *)
Theorem fake_operations_leave_task :
  leaves_task FakePower.validate /\ leaves_task FakePower.get_power_state /\
  leaves_task FakePower.reboot /\
  leaves_task FakeDeploy.validate /\ leaves_task FakeDeploy.deploy /\
  leaves_task FakeDeploy.tear_down /\ leaves_task FakeDeploy.prepare /\
  leaves_task FakeDeploy.clean_up /\ leaves_task FakeDeploy.take_over /\
  (forall method kwargs, leaves_task (FakeVendorA.validate method kwargs)) /\
  (forall h bar, leaves_task (FakeVendorA.first_method h bar)) /\
  (forall method kwargs, leaves_task (FakeVendorB.validate method kwargs)) /\
  (forall h bar, leaves_task (FakeVendorB.second_method h bar)) /\
  (forall h bar, leaves_task (FakeVendorB.third_method_sync h bar)) /\
  leaves_task FakeConsole.validate /\ leaves_task FakeConsole.start_console /\
  leaves_task FakeConsole.stop_console /\ leaves_task FakeConsole.get_console /\
  leaves_task FakeManagement.validate /\
  (forall device persistent,
     leaves_task (FakeManagement.set_boot_device device persistent)) /\
  leaves_task FakeManagement.get_boot_device /\
  leaves_task FakeManagement.get_sensors_data.
Proof.
  unfold leaves_task.
  repeat split; intros; try reflexivity.
  - rewrite validate_a_shape. destruct (_ && _); reflexivity.
  - rewrite validate_b_shape. destruct (_ && _); reflexivity.
  - unfold FakeManagement.set_boot_device. destruct (negb _); reflexivity.
Qed.
